(** * ProcIsoCity dossier tools: a shallow embedding

    This development embeds the numeric and alignment logic of
    [tools/procisocity_compare.py] and [tools/procisocity_insights.py]
    and states the properties of their specification over it.

    Conventions.
    - A Python [str] is a [string] of ASCII characters; [str.strip],
      [str.lower] and [str.isalnum] are given for ASCII.
    - A Python [float] is a [pyfloat]: an exact rational, or one of the
      non-finite values the code tests for with [math.isfinite].  The four
      operations are exact on the finite values; the rounding of binary64
      is the subject of the separate module [Binary64], which re-reads
      the same source text over the machine floats.
    - [None] is [None]; a Python [dict] is a [gmap], a [set] a [gset].
    - An exception that the code can raise (an index out of range) is a
      value of the error monad [py]; an exception caught by
      [except Exception] is the branch the handler takes. *)

From Stdlib Require Import ZArith QArith Qround Qabs Lqa Lia List Bool Ascii String.
From Stdlib Require Import Floats.
From stdpp Require Import gmap strings list sorting.

Local Open Scope string_scope.
Local Open Scope Z_scope.

(** ** Python values *)

Inductive pyfloat : Type :=
| PFin (q : Q)
| PInf
| PNegInf
| PNaN.

(** [math.isfinite(v)] *)
Definition isfinite (v : pyfloat) : bool :=
  match v with PFin _ => true | _ => false end.

(** The test [v is not None and math.isfinite(v)], giving the number. *)
Definition finite (v : option pyfloat) : option Q :=
  match v with Some (PFin q) => Some q | _ => None end.

(** [int(v)] on a float: truncation toward zero; [OverflowError] on an
    infinity and [ValueError] on a NaN are both seen as [None] by the
    callers, which wrap the call in [except Exception]. *)
Definition Qtrunc (q : Q) : Z := Z.quot (Qnum q) (Z.pos (Qden q)).

Definition py_int (v : pyfloat) : option Z :=
  match v with PFin q => Some (Qtrunc q) | _ => None end.

(** Exceptions that escape a function. *)
Inductive exn : Type :=
| IndexError
| ValueError
| OverflowError
| AttributeError
| ZeroDivisionError
| StatisticsError.

Inductive py (A : Type) : Type :=
| Ret (a : A)
| Raise (e : exn).
Arguments Ret {A} a.
Arguments Raise {A} e.

#[export] Instance py_ret : MRet py := fun A a => Ret a.
#[export] Instance py_bind : MBind py := fun A B f m =>
  match m with Ret a => f a | Raise e => Raise e end.

(** ** Strings *)

(** [str.isspace] on an ASCII character. *)
Definition is_space (c : ascii) : bool :=
  let n := nat_of_ascii c in
  ((9 <=? n) && (n <=? 13) || (28 <=? n) && (n <=? 32))%nat.

Fixpoint lstrip (l : list ascii) : list ascii :=
  match l with
  | c :: l' => if is_space c then lstrip l' else l
  | [] => []
  end.

(** [s.strip()] *)
Definition strip (s : string) : string :=
  string_of_list_ascii
    (rev (lstrip (rev (lstrip (list_ascii_of_string s))))).

Definition lower_ascii (c : ascii) : ascii :=
  let n := nat_of_ascii c in
  if ((65 <=? n) && (n <=? 90))%nat then ascii_of_nat (n + 32) else c.

(** [s.lower()] *)
Definition lower (s : string) : string :=
  string_of_list_ascii (map lower_ascii (list_ascii_of_string s)).

Definition is_digit (c : ascii) : bool :=
  let n := nat_of_ascii c in ((48 <=? n) && (n <=? 57))%nat.

(** [ch.isalnum()] on an ASCII character. *)
Definition isalnum (c : ascii) : bool :=
  let n := nat_of_ascii c in
  (is_digit c || (65 <=? n) && (n <=? 90) || (97 <=? n) && (n <=? 122))%nat.

(** ** The builtin [float(s)]

    The grammar of the language reference:
    [floatvalue ::= [sign] (floatnumber | "inf" | "infinity" | "nan")],
    [floatnumber ::= number [exponent]],
    [number ::= [digitpart] "." digitpart | digitpart ["."]],
    [exponent ::= ("e" | "E") [sign] digitpart],
    [digitpart ::= digit (["_"] digit)*],
    the words in any letter case and the whole between optional white
    space.  [None] stands for [ValueError]. *)

Definition digit_val (c : ascii) : Z := Z.of_nat (nat_of_ascii c - 48).

Fixpoint digit_run (l : list ascii) : list ascii * list ascii :=
  match l with
  | c :: l1 =>
      if is_digit c then
        let '(ds, r) := digit_run l1 in (c :: ds, r)
      else if Ascii.eqb c "_" then
        match l1 with
        | d :: l2 =>
            if is_digit d then
              let '(ds, r) := digit_run l2 in (d :: ds, r)
            else ([], l)
        | [] => ([], l)
        end
      else ([], l)
  | [] => ([], [])
  end.

Definition digitpart (l : list ascii) : list ascii * list ascii :=
  match l with
  | c :: l1 =>
      if is_digit c then let '(ds, r) := digit_run l1 in (c :: ds, r)
      else ([], l)
  | [] => ([], [])
  end.

Definition digits_value (ds : list ascii) : Z :=
  fold_left (fun acc c => 10 * acc + digit_val c) ds 0.

Definition parse_sign (l : list ascii) : bool * list ascii :=
  match l with
  | c :: r =>
      if Ascii.eqb c "+" then (false, r)
      else if Ascii.eqb c "-" then (true, r)
      else (false, l)
  | [] => (false, l)
  end.

Definition parse_number (l : list ascii)
  : option (list ascii * list ascii * list ascii) :=
  let '(ip, r) := digitpart l in
  match r with
  | c :: r1 =>
      if Ascii.eqb c "." then
        let '(fp, r2) := digitpart r1 in
        match ip, fp with
        | [], [] => None
        | _, _ => Some (ip, fp, r2)
        end
      else match ip with [] => None | _ => Some (ip, [], r) end
  | [] => match ip with [] => None | _ => Some (ip, [], r) end
  end.

Definition parse_exponent (l : list ascii) : option Z :=
  match l with
  | [] => Some 0
  | c :: r =>
      if Ascii.eqb (lower_ascii c) "e" then
        let '(neg, r1) := parse_sign r in
        let '(ds, r2) := digitpart r1 in
        match ds, r2 with
        | _ :: _, [] =>
            Some (if neg then - digits_value ds else digits_value ds)
        | _, _ => None
        end
      else None
  end.

(** The float nearest to a decimal: [round_pos n d] is the binary64
    nearest to the positive rational [n/d], ties to even, and an
    infinity from [2^1024] on.  With [e] the binary exponent of [n/d],
    the float is a multiple [m] of [2^ex] for [ex = max (e - 52) (-1074)]. *)
Definition round_pos (n d : positive) : pyfloat :=
  let e0 := Z.log2 (Z.pos n) - Z.log2 (Z.pos d) in
  let e :=
    if Z.pos d * 2 ^ Z.max e0 0 <=? Z.pos n * 2 ^ Z.max (- e0) 0
    then e0 else e0 - 1 in
  let ex := Z.max (e - 52) (-1074) in
  let num := Z.pos n * 2 ^ Z.max (- ex) 0 in
  let den := Z.pos d * 2 ^ Z.max ex 0 in
  let q := num / den in
  let r := num mod den in
  let m :=
    if 2 * r <? den then q
    else if den <? 2 * r then q + 1
    else if Z.even q then q else q + 1 in
  if 2 ^ 1024 <=? m * 2 ^ Z.max ex 0 then PInf
  else PFin (Qred (Qmake (m * 2 ^ Z.max ex 0) (Z.to_pos (2 ^ Z.max (- ex) 0)))).

Definition of_decimal (q : Q) : pyfloat :=
  match Qnum q with
  | Z0 => PFin 0
  | Z.pos n => round_pos n (Qden q)
  | Z.neg n =>
      match round_pos n (Qden q) with
      | PFin r => PFin (- r)
      | _ => PNegInf
      end
  end.

Definition py_float (s : string) : option pyfloat :=
  let '(neg, body) := parse_sign (list_ascii_of_string (strip s)) in
  let word := lower (string_of_list_ascii body) in
  if bool_decide (word ∈ ["inf"; "infinity"]) then
    Some (if neg then PNegInf else PInf)
  else if bool_decide (word = "nan") then Some PNaN
  else
    match parse_number body with
    | Some (ip, fp, r) =>
        match parse_exponent r with
        | Some e =>
            let m := digits_value (ip ++ fp) in
            let q := (inject_Z (if neg then - m else m)
                      * Qpower (10 # 1) (e - Z.of_nat (length fp)))%Q in
            Some (of_decimal q)
        | None => None
        end
    | None => None
    end.

(** ** Lists and numbers shared by both tools *)

Definition Qltb (x y : Q) : bool := negb (Qle_bool y x).

(** [float(n)] for a length or a rank. *)
Definition of_nat (n : nat) : Q := inject_Z (Z.of_nat n).

(** [list.sort()], which is stable: insertion from the right puts an
    element in front of the equal ones that followed it. *)
Fixpoint insert_by {A : Type} (le : A -> A -> bool) (x : A) (l : list A)
  : list A :=
  match l with
  | [] => [x]
  | y :: l' => if le x y then x :: l else y :: insert_by le x l'
  end.

Definition sort_by {A : Type} (le : A -> A -> bool) (l : list A) : list A :=
  foldr (insert_by le) [] l.

(** [sum(xs)] *)
Definition pysum (xs : list Q) : Q := fold_left Qplus xs 0%Q.

(** [min(xs)] of [x :: xs]: the first of the smallest elements. *)
Definition pymin (x : Q) (xs : list Q) : Q :=
  fold_left (fun m v => if Qltb v m then v else m) xs x.

(** The library functions that the comparison tool calls on floats and
    that are no arithmetic of the rationals: [statistics.fmean], which
    raises [OverflowError] when the sum of its floats overflows,
    [statistics.pstdev] and [math.sqrt].  They are parameters. *)
Record pylib : Type := PyLib {
  lib_fmean : list Q -> py Q;
  lib_pstdev : list Q -> py Q;
  lib_sqrt : Q -> Q
}.

(** A float literal of the source: the binary64 nearest to the decimal. *)
Definition literal (q : Q) : Q :=
  match of_decimal q with PFin r => r | _ => 0%Q end.

(** [enumerate(xs, start=1)] *)
Definition enumerate1 {A : Type} (xs : list A) : list (nat * A) :=
  zip (seq 1 (length xs)) xs.

(** [xs[i]], with Python's negative indices. *)
Definition py_index {A : Type} (xs : list A) (i : Z) : py A :=
  let n := Z.of_nat (length xs) in
  let j := if i <? 0 then i + n else i in
  if j <? 0 then Raise IndexError
  else match xs !! Z.to_nat j with
       | Some x => Ret x
       | None => Raise IndexError
       end.



(** A [for] loop that appends one result per element. *)
Fixpoint mapM_py {A B : Type} (f : A -> py B) (l : list A) : py (list B) :=
  match l with
  | [] => Ret []
  | a :: l' => b ← f a; bs ← mapM_py f l'; Ret (b :: bs)
  end.

(** The first candidate on which [f] answers, in the order of the list. *)
Fixpoint first_some {A B : Type} (f : A -> option B) (l : list A)
  : option B :=
  match l with
  | [] => None
  | a :: l' => match f a with Some b => Some b | None => first_some f l' end
  end.

Definition clamp (x lo hi : Q) : Q :=
  if Qltb x lo then lo else if Qltb hi x then hi else x.

(** The body of [gini] once the finite values are collected; it is the
    same text in both tools. *)
Definition gini_of (xs : list Q) : option Q :=
  match xs with
  | [] => None
  | x0 :: rest =>
      let mn := pymin x0 rest in
      let xs := if Qltb mn 0 then map (fun v => v - mn)%Q xs else xs in
      let xs := sort_by Qle_bool xs in
      let n := of_nat (length xs) in
      let total := pysum xs in
      if Qle_bool total 0 then Some 0%Q
      else
        let cum :=
          fold_left (fun cum ix => cum + of_nat ix.1 * ix.2)%Q
                    (enumerate1 xs) 0%Q in
        let g := ((2 * cum) / (n * total) - (n + 1) / n)%Q in
        Some (clamp g 0 1)
  end.

Module MetricStats.
Record t : Type := mk {
  count : nat;
  mean : Q;
  stdev : Q;
  min : Q;
  p10 : Q;
  p50 : Q;
  p90 : Q;
  p99 : Q;
  max : Q
}.
End MetricStats.

(** The inner function [pct] of [compute_stats]; [xs] is the sorted list
    it closes over. *)
Definition pct (xs : list Q) (p : Q) : py Q :=
  let n := Z.of_nat (length xs) in
  if n =? 1 then py_index xs 0
  else
    let k := (inject_Z (n - 1) * p)%Q in
    let i := Qfloor k in
    let j := Z.min (i + 1) (n - 1) in
    let t := (k - inject_Z i)%Q in
    xi ← py_index xs i;
    xj ← py_index xs j;
    Ret (xi * (1 - t) + xj * t)%Q.

(** [compute_stats], the same text in both tools. *)
Definition compute_stats (L : pylib) (values : list (option pyfloat))
  : py (option MetricStats.t) :=
  let xs := omap finite values in
  match xs with
  | [] => Ret None
  | _ :: _ =>
      let xs := sort_by Qle_bool xs in
      let n := length xs in
      mean ← lib_fmean L xs;
      stdev ← (if (2 <=? n)%nat then lib_pstdev L xs else Ret 0%Q);
      lo ← py_index xs 0;
      q10 ← pct xs (literal (10 # 100));
      q50 ← pct xs (literal (50 # 100));
      q90 ← pct xs (literal (90 # 100));
      q99 ← pct xs (literal (99 # 100));
      hi ← py_index xs (-1);
      Ret (Some (MetricStats.mk n mean stdev lo q10 q50 q90 q99 hi))
  end.

(** ** Tables and records

    A row as [csv.DictReader] yields it: a cell for every column of the
    header, [None] where the line was too short, and under the key
    [None] the cells that the line had beyond the header. *)
Record dict_row : Type := DictRow {
  dr_cells : gmap string (option string);
  dr_rest : option (list string)
}.

(** A row as [read_csv_rows] of the comparison tool returns it: the
    cells that were [None] are [""]; the key [None] is kept. *)
Record row : Type := Row {
  cells : gmap string string;
  rest : option (list string)
}.

#[export] Instance row_eq_dec : EqDecision row.
Proof. solve_decision. Defined.

#[export] Instance row_inhabited : Inhabited row := populate (Row ∅ None).

(** A row of a rectangular file. *)
Definition mk_row (l : list (string * string)) : row :=
  Row (list_to_map l) None.

(** [r.get(c, "")] for a column name [c] *)
Definition get (r : row) (c : string) : string := default "" (cells r !! c).

(** [c in r] for a column name [c] *)
Definition has_key (r : row) (c : string) : bool :=
  bool_decide (is_Some (cells r !! c)).

(** [r.get(c, "")] on a row of [csv.DictReader]: the result [None] is a
    cell that is [None]. *)
Definition dget (r : dict_row) (c : string) : option string :=
  default (Some "") (dr_cells r !! c).

(** A row of [csv.DictReader] on a line that has one cell per column. *)
Definition mk_dict_row (l : list (string * string)) : dict_row :=
  DictRow (list_to_map (prod_map id Some <$> l)) None.

(** What [json.load] returns; a JSON object keeps its members in a list
    with one entry per key. *)
#[local] Set Warnings "-register-all".
Inductive json : Type :=
| JNull
| JBool (b : bool)
| JInt (z : Z)
| JFloat (f : pyfloat)
| JStr (s : string)
| JArr (l : list json)
| JObj (l : list (string * json)).

Fixpoint assoc {A : Type} (k : string) (l : list (string * A)) : option A :=
  match l with
  | [] => None
  | (k', v) :: l' => if String.eqb k k' then Some v else assoc k l'
  end.

(** [d.get(k)] on a JSON object: [None], which is [JNull], by default. *)
Definition jget (d : list (string * json)) (k : string) : json :=
  default JNull (assoc k d).

(** Arithmetic and comparison of floats that have not been through
    [math.isfinite]. *)
Definition fsub (a b : pyfloat) : pyfloat :=
  match a, b with
  | PNaN, _ => PNaN
  | _, PNaN => PNaN
  | PFin x, PFin y => PFin (x - y)
  | PInf, PInf => PNaN
  | PNegInf, PNegInf => PNaN
  | PInf, _ => PInf
  | _, PNegInf => PInf
  | PNegInf, _ => PNegInf
  | _, PInf => PNegInf
  end.

Definition fabs (a : pyfloat) : pyfloat :=
  match a with
  | PFin x => PFin (Qabs x)
  | PInf | PNegInf => PInf
  | PNaN => PNaN
  end.

Definition feq (a b : pyfloat) : bool :=
  match a, b with
  | PFin x, PFin y => Qeq_bool x y
  | PInf, PInf => true
  | PNegInf, PNegInf => true
  | _, _ => false
  end.

Definition flt (a b : pyfloat) : bool :=
  match a, b with
  | PNaN, _ => false
  | _, PNaN => false
  | PFin x, PFin y => Qltb x y
  | _, PNegInf => false
  | PInf, _ => false
  | PNegInf, _ => true
  | _, PInf => true
  end.

(** [a == b] on JSON values: [bool] is a kind of [int], numbers compare
    by value, lists member by member and objects key by key.  Inside a
    list or an object the members are first compared by identity, and
    [json.load] makes every [NaN] the same object: there a [NaN] equals
    a [NaN], which [==] itself denies. *)
Definition json_number (a : json) : option pyfloat :=
  match a with
  | JBool b => Some (PFin (if b then 1 else 0))
  | JInt z => Some (PFin (inject_Z z))
  | JFloat f => Some f
  | _ => None
  end.

Fixpoint py_eq_member (a b : json) : bool :=
  match a, b with
  | JNull, JNull => true
  | JStr s, JStr t => String.eqb s t
  | JArr l, JArr m =>
      (fix go (l m : list json) : bool :=
         match l, m with
         | [], [] => true
         | x :: l', y :: m' => py_eq_member x y && go l' m'
         | _, _ => false
         end) l m
  | JObj l, JObj m =>
      (length l =? length m)%nat &&
      (fix go (l : list (string * json)) : bool :=
         match l with
         | [] => true
         | (k, v) :: l' =>
             match assoc k m with
             | Some v' => py_eq_member v v'
             | None => false
             end && go l'
         end) l
  | JFloat PNaN, JFloat PNaN => true
  | _, _ =>
      match json_number a, json_number b with
      | Some x, Some y => feq x y
      | _, _ => false
      end
  end.

Definition py_eq (a b : json) : bool :=
  match a, b with
  | JFloat PNaN, JFloat PNaN => false
  | _, _ => py_eq_member a b
  end.

Definition is_none (a : json) : bool :=
  match a with JNull => true | _ => false end.

(** ** The comparison tool *)

Module Compare.

Definition _to_float (s : string) : option pyfloat :=
  let s := strip s in
  if bool_decide (s = "")
     || bool_decide (lower s ∈ ["nan"; "null"; "none"]) then None
  else
    match py_float s with
    | None => None
    | Some v => if negb (isfinite v) then None else Some v
    end.

Definition _to_int (s : string) : option Z :=
  match _to_float s with
  | None => None
  | Some v => py_int v
  end.

Definition gini (values : list (option pyfloat)) : option Q :=
  gini_of (omap finite values).

(** [read_csv_rows]: the header and the rows of [csv.DictReader],
    [None] cells replaced by [""]. *)
Definition read_csv_rows (file : list string * list dict_row)
  : list string * list row :=
  (file.1,
   map (fun r => Row (default "" <$> dr_cells r) (dr_rest r)) file.2).

Definition rmse (L : pylib) (a b : list (option pyfloat)) : option Q :=
  let st :=
    fold_left
      (fun (st : Q * nat) xy =>
         match finite xy.1, finite xy.2 with
         | Some x, Some y => (st.1 + (x - y) * (x - y), S st.2)%Q
         | _, _ => st
         end)
      (zip a b) (0%Q, 0%nat) in
  if (st.2 =? 0)%nat then None
  else Some (lib_sqrt L (st.1 / of_nat st.2)).

(** [discover_numeric_columns]: the counters [valid] and [seen] of one
    column, then the columns of the first row that pass.  The key
    [None] of a first row that has cells beyond the header is the last
    of its keys; its value there is a list, on which [s.strip()] raises
    [AttributeError]. *)
Definition column_counts (rows : list row) (c : string) : nat * nat :=
  fold_left
    (fun vs r =>
       let s2 := strip (get r c) in
       if bool_decide (s2 = "") then vs
       else (match _to_float s2 with
             | Some _ => S vs.1
             | None => vs.1
             end, S vs.2))
    rows (0%nat, 0%nat).

Definition discover_numeric_columns (rows : list row) (min_valid_frac : Q)
  : py (list string) :=
  match rows with
  | [] => Ret []
  | r0 :: _ =>
      let numeric :=
        List.filter
          (fun c =>
             let '(valid, seen) := column_counts rows c in
             negb (seen =? 0)%nat
             && Qle_bool min_valid_frac (of_nat valid / of_nat seen))
          (elements (dom (cells r0))) in
      match rest r0 with
      | Some _ => Raise AttributeError
      | None => Ret numeric
      end
  end.

Module SummaryCmp.
Record t : Type := mk {
  present_a : bool;
  present_b : bool;
  same_seed : option bool;
  same_size : option bool;
  seed_a : json;
  seed_b : json;
  width_a : json;
  width_b : json;
  height_a : json;
  height_b : json;
  hash_a : json;
  hash_b : json;
  tool_a : json;
  tool_b : json
}.
End SummaryCmp.

(** [if a:] on an optional dict. *)
Definition nonempty (a : option (list (string * json)))
  : list (string * json) * bool :=
  match a with
  | None | Some [] => ([], false)
  | Some d => (d, true)
  end.

Definition compare_summary (a b : option (list (string * json)))
  : SummaryCmp.t :=
  let '(da, ta) := nonempty a in
  let '(db, tb) := nonempty b in
  let field (d : list (string * json)) (t : bool) (k : string) : json :=
    if t then jget d k else JNull in
  let seed_a := field da ta "seed" in
  let seed_b := field db tb "seed" in
  let width_a := field da ta "width" in
  let width_b := field db tb "width" in
  let height_a := field da ta "height" in
  let height_b := field db tb "height" in
  {| SummaryCmp.present_a := bool_decide (is_Some a);
     SummaryCmp.present_b := bool_decide (is_Some b);
     SummaryCmp.same_seed :=
       if ta && tb then
         Some (py_eq seed_a seed_b && negb (is_none seed_a))
       else None;
     SummaryCmp.same_size :=
       if ta && tb then
         Some (py_eq width_a width_b && py_eq height_a height_b
               && negb (is_none width_a))
       else None;
     SummaryCmp.seed_a := seed_a;
     SummaryCmp.seed_b := seed_b;
     SummaryCmp.width_a := width_a;
     SummaryCmp.width_b := width_b;
     SummaryCmp.height_a := height_a;
     SummaryCmp.height_b := height_b;
     SummaryCmp.hash_a := field da ta "hash";
     SummaryCmp.hash_b := field db tb "hash";
     SummaryCmp.tool_a := field da ta "tool";
     SummaryCmp.tool_b := field db tb "tool" |}.

(** [compare_ticks] *)
Module TickMetric.
Record t : Type := mk {
  metric : string;
  a_last : option pyfloat;
  b_last : option pyfloat;
  delta_last : option pyfloat;
  a_mean : option Q;
  b_mean : option Q;
  delta_mean : option Q;
  rmse : option Q;
  max_abs_day : option Z;
  max_abs_delta : option pyfloat
}.
End TickMetric.

Module TicksCmp.
Record t : Type := mk {
  present_a : bool;
  present_b : bool;
  common_days : nat;
  day_min : option Z;
  day_max : option Z;
  metrics : list TickMetric.t
}.
End TicksCmp.

(** The loop that fills [map_a] (and [map_b]). *)
Definition day_map (rows : list row) : gmap Z row :=
  fold_left
    (fun m r =>
       match _to_int (get r "day") with
       | None => m
       | Some d => <[d := r]> m
       end)
    rows ∅.

(** The loop over the days for one column: the state is [max_abs],
    [max_abs_day] and [max_abs_delta]. *)
Definition max_abs_scan (map_a map_b : gmap Z row) (c : string)
    (days : list Z) : pyfloat * option Z * option pyfloat :=
  fold_left
    (fun (st : pyfloat * option Z * option pyfloat) d =>
       match _to_float (get (map_a !!! d) c), _to_float (get (map_b !!! d) c)
       with
       | Some va, Some vb =>
           let delta := fsub vb va in
           let ad := fabs delta in
           if bool_decide (st.1.2 = None) || flt st.1.1 ad
           then (ad, Some d, Some delta)
           else st
       | _, _ => st
       end)
    days (PFin 0, None, None).

(** The body of the loop over the columns. *)
Definition tick_metric (L : pylib) (map_a map_b : gmap Z row)
    (days : list Z) (c : string) : py TickMetric.t :=
  let series_a := map (fun d => _to_float (get (map_a !!! d) c)) days in
  let series_b := map (fun d => _to_float (get (map_b !!! d) c)) days in
  let st := max_abs_scan map_a map_b c days in
  let a_last :=
    d ← last days; _to_float (get (map_a !!! d) c) in
  let b_last :=
    d ← last days; _to_float (get (map_b !!! d) c) in
  a_stats ← compute_stats L series_a;
  b_stats ← compute_stats L series_b;
  Ret (TickMetric.mk c a_last b_last
         (match a_last, b_last with
          | Some a, Some b => Some (fsub b a)
          | _, _ => None
          end)
         (MetricStats.mean <$> a_stats)
         (MetricStats.mean <$> b_stats)
         (match a_stats, b_stats with
          | Some sa, Some sb =>
              Some (MetricStats.mean sb - MetricStats.mean sa)%Q
          | _, _ => None
          end)
         (rmse L series_a series_b)
         st.1.2 st.2).

(** [sort_key], and the order of [metrics.sort(key=sort_key, reverse=True)]. *)
Definition sort_key (m : TickMetric.t) : pyfloat :=
  match TickMetric.delta_last m with
  | None => PFin (-1)
  | Some v => fabs v
  end.

Definition by_sort_key_desc (m1 m2 : TickMetric.t) : bool :=
  negb (flt (sort_key m1) (sort_key m2)).

Definition compare_ticks (L : pylib) (rows_a rows_b : list row)
  : py TicksCmp.t :=
  let out :=
    TicksCmp.mk (negb (bool_decide (rows_a = [])))
                (negb (bool_decide (rows_b = []))) 0 None None [] in
  match rows_a, rows_b with
  | ra0 :: _, rb0 :: _ =>
      if has_key ra0 "day" && has_key rb0 "day" then
        let map_a := day_map rows_a in
        let map_b := day_map rows_b in
        let days := sort_by Z.leb (elements (dom map_a ∩ dom map_b)) in
        match days with
        | [] => Ret out
        | d0 :: _ =>
            num_a ← discover_numeric_columns rows_a (literal (75 # 100));
            num_b ← discover_numeric_columns rows_b (literal (75 # 100));
            let cols :=
              sort_by String.leb
                (elements ((list_to_set num_a ∩ list_to_set num_b)
                           ∖ {["day"]} : gset string)) in
            metrics ← mapM_py (tick_metric L map_a map_b days) cols;
            Ret (TicksCmp.mk (TicksCmp.present_a out) (TicksCmp.present_b out)
                   (length days) (Some d0) (last days)
                   (sort_by by_sort_key_desc metrics))
        end
      else Ret out
  | _, _ => Ret out
  end.

Definition _infer_tile_key_cols (header : list string)
  : option string * option string :=
  let candidates_x := ["x"; "tile_x"; "tx"] in
  let candidates_y := ["y"; "tile_y"; "ty"] in
  (List.find (fun c => bool_decide (c ∈ header)) candidates_x,
   List.find (fun c => bool_decide (c ∈ header)) candidates_y).

(** [compare_tile_metrics].  The order in which a [for] loop visits a
    Python set is not fixed by the language: it is the parameter
    [set_iter]. *)
Record tile : Type := mk_tile {
  tile_x : Z;
  tile_y : Z;
  tile_a : pyfloat;
  tile_b : pyfloat;
  tile_delta : pyfloat
}.

Inductive tile_entry : Type :=
| Note (s : string)
| Tiles (l : list tile).

Module TileMetric.
Record t : Type := mk {
  metric : string;
  a : MetricStats.t;
  b : MetricStats.t;
  delta_mean : Q;
  delta_p50 : Q;
  delta_p90 : Q;
  delta_p99 : Q;
  gini_a : option Q;
  gini_b : option Q
}.
End TileMetric.

Module TilesCmp.
Record t : Type := mk {
  present_a : bool;
  present_b : bool;
  metrics : list TileMetric.t;
  tile_deltas : gmap string tile_entry;
  note : option string
}.
End TilesCmp.










End Compare.

(** ** The analysis tool *)

Module Insights.

Definition _to_float (s : string) : option pyfloat :=
  let s := strip s in
  if bool_decide (s = "")
     || bool_decide (lower s ∈ ["nan"; "null"; "none"]) then None
  else py_float s.

Definition _to_int (s : string) : option Z :=
  let s := strip s in
  if bool_decide (s = "")
     || bool_decide (lower s ∈ ["nan"; "null"; "none"]) then None
  else
    match py_float s with
    | None => None
    | Some v => py_int v
    end.

Definition gini (values : list (option pyfloat)) : option Q :=
  match values with
  | [] => None
  | _ :: _ => gini_of (omap finite values)
  end.

(** The inner function [norm] of [_choose_column]. *)
Definition norm (s : string) : string :=
  string_of_list_ascii
    (List.filter isalnum (list_ascii_of_string (lower s))).

(** A dict comprehension [{key(h): h for h in headers}]. *)
Definition header_dict (key : string -> string) (headers : list string)
  : gmap string string :=
  fold_left (fun m h => <[key h := h]> m) headers ∅.

Definition _choose_column (headers candidates : list string)
  : option string :=
  let hs := header_dict lower headers in
  match first_some (fun c => hs !! lower c) candidates with
  | Some h => Some h
  | None =>
      let hnorm := header_dict norm headers in
      first_some (fun c => hnorm !! norm c) candidates
  end.

Definition desired : list (string * list string) :=
  [ ("land_value",
     ["landvalue"; "land_value"; "landValue"; "land_value_norm";
      "landvalue_norm"]);
    ("traffic",
     ["traffic"; "traffic_flow"; "commute_traffic"; "traffic_util";
      "congestion"]);
    ("goods_fill",
     ["goods_fill"; "goodsfill"; "goods"; "goods_pressure"; "goods_util"]);
    ("flood_depth", ["flood_depth"; "flooddepth"; "sea_depth"; "flood"]);
    ("ponding_depth",
     ["ponding_depth"; "pondingdepth"; "pond_depth"; "ponding"]);
    ("services",
     ["services"; "service"; "service_sat"; "services_sat";
      "satisfaction_services"]);
    ("happiness", ["happiness"; "happy"]);
    ("population", ["population"; "pop"; "residents"]);
    ("jobs", ["jobs"; "employment"]) ].

(** [if col:] and [not x_col] on an optional string. *)
Definition truthy (o : option string) : bool :=
  match o with
  | Some s => negb (bool_decide (s = ""))
  | None => false
  end.

Definition _discover_metric_columns (headers : list string)
  : list (string * string) :=
  omap
    (fun mc : string * list string =>
       let col := _choose_column headers mc.2 in
       if truthy col then (fun c => (mc.1, c)) <$> col else None)
    desired.

(** A call [f(r.get(c, ""))] of a helper that starts with [s.strip()]:
    on a cell that is [None] it raises [AttributeError]. *)
Definition on_cell {A : Type} (f : string -> A) (r : dict_row) (c : string)
  : py A :=
  match dget r c with
  | Some s => Ret (f s)
  | None => Raise AttributeError
  end.

(** The loop that collects [intish] from the first row. *)
Fixpoint intish_columns (first : dict_row) (headers : list string)
  : py (list string) :=
  match headers with
  | [] => Ret []
  | h :: headers' =>
      v ← on_cell _to_int first h;
      l ← intish_columns first headers';
      Ret (match v with Some _ => h :: l | None => l end)
  end.

(** [load_tile_metrics_csv], on what [csv.DictReader] reads from the
    file: its header and its rows, or [None] when the file is missing
    or unreadable.  An exception in the body is caught and gives
    [None]. *)
Definition load_tile_metrics_csv (file : option (list string * list dict_row))
  : option (list dict_row * list (string * string) * string * string) :=
  match file with
  | None => None
  | Some (headers, rows) =>
      let x_col := _choose_column headers ["x"; "tile_x"; "ix"; "col"] in
      let y_col := _choose_column headers ["y"; "tile_y"; "iy"; "row"] in
      let keys :=
        if negb (truthy x_col) || negb (truthy y_col) then
          match rows with
          | [] => None
          | first :: _ =>
              match intish_columns first headers with
              | Ret (h0 :: h1 :: _) => Some (h0, h1)
              | Ret _ => None
              | Raise _ => None
              end
          end
        else
          match x_col, y_col with
          | Some x, Some y => Some (x, y)
          | _, _ => None
          end in
      match keys with
      | Some (x, y) => Some (rows, _discover_metric_columns headers, x, y)
      | None => None
      end
  end.

End Insights.

(** ** The numeric functions over binary64

    [gini], the inner function [pct] of [compute_stats], [pearson_corr]
    and [morans_i_grid], read over the machine floats: every operator
    is the correctly rounded binary64 operation that Python's [float]
    performs, and every exception that the arithmetic can raise is
    raised. *)

Module Binary64.

(** [float(n)] for an [int] that a float holds exactly. *)
Definition of_Z (z : Z) : float :=
  if z <? 0 then PrimFloat.opp (PrimFloat.of_uint63 (Uint63.of_Z (- z)))
  else PrimFloat.of_uint63 (Uint63.of_Z z).

(** [math.floor(k)] *)
Definition floor (k : float) : py Z :=
  match Prim2SF k with
  | S754_zero _ => Ret 0
  | S754_finite s m e =>
      let num := (if s then Z.neg m else Z.pos m) * 2 ^ Z.max e 0 in
      Ret (num / 2 ^ Z.max (- e) 0)
  | S754_infinity _ => Raise OverflowError
  | S754_nan => Raise ValueError
  end.

(** The test [v is not None and math.isfinite(v)]. *)
Definition finite (v : option float) : option float :=
  match v with
  | Some x => if PrimFloat.is_finite x then Some x else None
  | None => None
  end.

Definition clamp (x lo hi : float) : float :=
  if PrimFloat.ltb x lo then lo else if PrimFloat.ltb hi x then hi else x.

(** [sum(xs)] of floats, as Python up to 3.11 adds them: from the left,
    starting from 0. *)
Definition sum (xs : list float) : float := fold_left PrimFloat.add xs 0%float.

Definition gini (values : list (option float)) : option float :=
  match omap finite values with
  | [] => None
  | x0 :: rest =>
      let xs := x0 :: rest in
      let mn := fold_left (fun m v => if PrimFloat.ltb v m then v else m)
                          rest x0 in
      let xs := if PrimFloat.ltb mn 0 then map (fun v => v - mn)%float xs
                else xs in
      let xs := sort_by PrimFloat.leb xs in
      let n := of_Z (Z.of_nat (length xs)) in
      let total := sum xs in
      if PrimFloat.leb total 0 then Some 0%float
      else
        let cum :=
          fold_left (fun cum ix => cum + of_Z (Z.of_nat ix.1) * ix.2)%float
                    (enumerate1 xs) 0%float in
        let g := ((2 * cum) / (n * total) - (n + 1) / n)%float in
        Some (clamp g 0 1)
  end.

Definition pct (xs : list float) (p : float) : py float :=
  let n := Z.of_nat (length xs) in
  if n =? 1 then py_index xs 0
  else
    let k := (of_Z (n - 1) * p)%float in
    i ← floor k;
    let j := Z.min (i + 1) (n - 1) in
    let t := (k - of_Z i)%float in
    xi ← py_index xs i;
    xj ← py_index xs j;
    Ret (xi * (1 - t) + xj * t)%float.
















End Binary64.

(** * The claims' notions

    Definitions that follow the words of the specification, to be
    compared with the code above. *)

(** A named match for a role: the first candidate, in the order of the
    list, that some header equals under [key]; the header taken is the
    last one that does. *)
Definition named_match (key : string -> string)
    (headers candidates : list string) : option string :=
  first_some (fun c => last (filter (fun h => key h = key c) headers))
             candidates.

(** A first row that has a cell for every column of the header, and the
    first two columns whose cell in the row parses as an integer. *)
Definition has_all_cells (headers : list string) (sample : dict_row) : Prop :=
  Forall (fun h => is_Some (dget sample h)) headers.

Definition first_two_integer_columns (parse : string -> option Z)
    (headers : list string) (sample : dict_row) : option (string * string) :=
  match filter (fun h => is_Some (dget sample h ≫= parse)) headers with
  | h0 :: h1 :: _ => Some (h0, h1)
  | _ => None
  end.

(** The first candidate that is, as it is written, a name of the header. *)
Definition first_present (header candidates : list string) : option string :=
  head (filter (fun c => c ∈ header) candidates).

(** The key columns in what [load_tile_metrics_csv] returns. *)
Definition tile_keys
    (r : option (list dict_row * list (string * string) * string * string))
  : option (string * string) :=
  (fun t => (t.1.2, t.2)) <$> r.

(** The day keys of a tick table, and a table whose rows all have the
    same columns, as [csv.DictReader] builds them. *)
Definition day_keys (rows : list row) : gset Z :=
  list_to_set (omap (fun r => Compare._to_int (get r "day")) rows).

Definition uniform_columns (rows : list row) : Prop :=
  forall r r' : row, r ∈ rows -> r' ∈ rows -> dom (cells r) = dom (cells r').

(** The tables of the specification's example: A has the days 1, 2, 3
    and B the days 2, 3, 4. *)
Definition ticks_123 : list row :=
  [ mk_row [("day", "1"); ("population", "10")];
    mk_row [("day", "2"); ("population", "12")];
    mk_row [("day", "3"); ("population", "15")] ].

Definition ticks_234 : list row :=
  [ mk_row [("day", "2"); ("population", "11")];
    mk_row [("day", "3"); ("population", "15")];
    mk_row [("day", "4"); ("population", "18")] ].












(** A call that returns, and a library whose mean and deviation return
    on every non-empty list. *)
Definition returns {A : Type} (m : py A) : Prop := exists a, m = Ret a.

Definition total_lib (L : pylib) : Prop :=
  (forall xs, xs <> [] -> returns (lib_fmean L xs))
  /\ (forall xs, xs <> [] -> returns (lib_pstdev L xs)).

(** A library for the examples: the mean and the deviation of the
    rationals, with the square root taken to 53 binary digits. *)
Definition sqrt_approx (q : Q) : Q :=
  (inject_Z (Z.sqrt (Qfloor (q * inject_Z (2 ^ 106)))) / inject_Z (2 ^ 53))%Q.

Definition exact_mean (xs : list Q) : Q := (pysum xs / of_nat (length xs))%Q.

Definition reference_lib : pylib :=
  {| lib_fmean xs :=
       if bool_decide (xs = []) then Raise StatisticsError
       else Ret (exact_mean xs);
     lib_pstdev xs :=
       if bool_decide (xs = []) then Raise StatisticsError
       else
         let m := exact_mean xs in
         Ret (sqrt_approx
                (exact_mean (map (fun x => (x - m) * (x - m))%Q xs)));
     lib_sqrt := sqrt_approx |}.

(** The percentile of the specification, on a list indexed from 0, and
    the median. *)
Definition nthQ (xs : list Q) (i : Z) : Q := nth (Z.to_nat i) xs 0%Q.

Definition percentile (xs : list Q) (p : Q) : Q :=
  let n := Z.of_nat (length xs) in
  let k := (inject_Z (n - 1) * p)%Q in
  let i := Qfloor k in
  let j := Z.min (i + 1) (n - 1) in
  let t := (k - inject_Z i)%Q in
  (nthQ xs i * (1 - t) + nthQ xs j * t)%Q.











(** * Properties *)

(** ** Sorting *)

Section Sorting.
Context {A : Type} (le : A -> A -> bool).

Lemma insert_by_Permutation (x : A) (l : list A) :
  insert_by le x l ≡ₚ x :: l.
Proof.
  induction l as [|y l IH]; simpl; [reflexivity|].
  destruct (le x y); [reflexivity|].
  rewrite IH. apply Permutation_swap.
Qed.

Lemma sort_by_Permutation (l : list A) : sort_by le l ≡ₚ l.
Proof.
  induction l as [|x l IH]; simpl; [reflexivity|].
  rewrite insert_by_Permutation, IH. reflexivity.
Qed.

Lemma sort_by_length (l : list A) : length (sort_by le l) = length l.
Proof. apply Permutation_length, sort_by_Permutation. Qed.

Lemma sort_by_nil (l : list A) : sort_by le l = [] -> l = [].
Proof.
  intros H. apply Permutation_nil_r. rewrite <- H.
  symmetry. apply sort_by_Permutation.
Qed.

(** The order need only be total and transitive on the elements sorted,
    which [P] describes. *)
Context (P : A -> Prop).
Hypothesis le_total :
  forall x y, P x -> P y -> le x y = true \/ le y x = true.
Hypothesis le_trans :
  forall x y z, P x -> P y -> P z ->
                le x y = true -> le y z = true -> le x z = true.

Lemma insert_by_sorted (x : A) (l : list A) :
  P x -> Forall P l ->
  StronglySorted (fun a b => le a b = true) l ->
  StronglySorted (fun a b => le a b = true) (insert_by le x l).
Proof.
  intros Hx Hl Hs. induction Hs as [|y l Hs IH Hy]; simpl.
  - repeat constructor.
  - apply Forall_cons in Hl as [Py Pl]. destruct (le x y) eqn:E.
    + constructor; [constructor; assumption|].
      constructor; [exact E|].
      rewrite Forall_forall in Hy, Pl. apply Forall_forall.
      intros z Hz. apply (le_trans x y z); auto.
    + constructor; [exact (IH Pl)|].
      rewrite insert_by_Permutation. constructor; [|exact Hy].
      destruct (le_total x y Hx Py) as [H|H]; [congruence|exact H].
Qed.

Lemma sort_by_sorted (l : list A) :
  Forall P l -> StronglySorted (fun a b => le a b = true) (sort_by le l).
Proof.
  induction 1 as [|x l Hx Hl IH]; simpl; [constructor|].
  apply insert_by_sorted; [exact Hx| |exact IH].
  rewrite sort_by_Permutation. exact Hl.
Qed.

End Sorting.

Lemma sorted_head_last (l : list Z) (lo : Z) :
  StronglySorted (fun a b => (a <=? b)%Z = true) (lo :: l) ->
  exists hi, last (lo :: l) = Some hi
             /\ forall d, d ∈ lo :: l -> (lo <= d <= hi)%Z.
Proof.
  revert lo. induction l as [|x l IH]; intros lo Hs.
  - exists lo. split; [reflexivity|].
    intros d Hd. apply list_elem_of_singleton in Hd. lia.
  - apply StronglySorted_inv in Hs as [Hs Hlo].
    destruct (IH x Hs) as (hi & Hlast & Hb). exists hi.
    split; [exact Hlast|].
    apply Forall_cons in Hlo as [Hx Hlo]. apply Z.leb_le in Hx.
    intros d Hd. apply elem_of_cons in Hd as [-> | Hd].
    + specialize (Hb x (list_elem_of_here _ _)). lia.
    + specialize (Hb d Hd). lia.
Qed.


(** ** Numeric parsing *)

Lemma Qtrunc_toward_zero (q : Q) :
  Qtrunc q = if Qle_bool 0 q then Qfloor q else Qceiling q.
Proof.
  destruct q as [n d]. unfold Qtrunc, Qle_bool, Qceiling, Qfloor, Qopp.
  cbn [Qnum Qden]. rewrite Z.mul_0_l, Z.mul_1_r.
  destruct (Z.leb_spec 0 n) as [Hn|Hn].
  - apply Z.quot_div_nonneg; lia.
  - rewrite <- (Z.opp_involutive n) at 1. rewrite Z.quot_opp_l by lia.
    f_equal. apply Z.quot_div_nonneg; lia.
Qed.

Lemma compare_to_float_finite (s : string) (v : pyfloat) :
  Compare._to_float s = Some v -> isfinite v = true.
Proof.
  unfold Compare._to_float.
  destruct (_ || _); [discriminate|].
  destruct (py_float (strip s)) as [u|]; [|discriminate].
  destruct (isfinite u) eqn:Hu; simpl; [|discriminate].
  intros [= <-]. exact Hu.
Qed.

Lemma compare_to_float_absent (s : string) :
  strip s = "" \/ lower (strip s) ∈ ["nan"; "null"; "none"]
  \/ py_float (strip s) = None ->
  Compare._to_float s = None.
Proof.
  unfold Compare._to_float. intros [H|[H|H]].
  - rewrite (bool_decide_eq_true_2 _ H). reflexivity.
  - rewrite (bool_decide_eq_true_2 _ H), orb_true_r. reflexivity.
  - rewrite H. destruct (_ || _); reflexivity.
Qed.

Lemma compare_to_float_insights (s : string) :
  Compare._to_float s =
  match Insights._to_float s with
  | Some (PFin q) => Some (PFin q)
  | _ => None
  end.
Proof.
  unfold Compare._to_float, Insights._to_float.
  destruct (_ || _); [reflexivity|].
  destruct (py_float (strip s)) as [[]|]; reflexivity.
Qed.

(** C2 (the analysis tool breaks it).  The [_to_float] of the analysis
    tool has no [math.isfinite] test: on ["inf"] it returns the float
    infinity, where the claim says absent and where the [_to_float] of
    the comparison tool, which has the test, returns [None]. *)
Theorem insights_to_float_keeps_infinity :
  Insights._to_float "inf" = Some PInf
  /\ isfinite PInf = false
  /\ Compare._to_float "inf" = None.
Proof. vm_compute. auto. Qed.

(** C3, as the claim states it, fails: the helpers convert with [int],
    which truncates toward zero, so the float [-2.5] gives [-2] where
    the floor is [-3]. *)
Lemma to_int_is_not_floor :
  Compare._to_float "-2.5" = Some (PFin (-5 # 2))
  /\ Qfloor (-5 # 2) = (-3)%Z
  /\ Compare._to_int "-2.5" = Some (-2)%Z
  /\ Insights._to_int "-2.5" = Some (-2)%Z.
Proof. vm_compute. auto. Qed.

(** C3, amended.  In both tools [_to_int s] is [int] of the float that
    [_to_float s] returns, that is its truncation toward zero, and is
    absent when that float is absent or not finite; in the comparison
    tool, whose [_to_float] returns finite floats only, it is absent
    exactly when [_to_float s] is. *)
Theorem to_int_truncates (s : string) :
  Compare._to_int s = Qtrunc <$> finite (Compare._to_float s)
  /\ (Compare._to_int s = None <-> Compare._to_float s = None)
  /\ Insights._to_int s = Qtrunc <$> finite (Insights._to_float s).
Proof.
  split; [|split].
  - unfold Compare._to_int. destruct (Compare._to_float s) as [[]|]; reflexivity.
  - unfold Compare._to_int.
    destruct (Compare._to_float s) as [v|] eqn:E; [|tauto].
    apply compare_to_float_finite in E. destruct v; try discriminate.
    simpl. split; discriminate.
  - unfold Insights._to_int, Insights._to_float.
    destruct (_ || _); [reflexivity|].
    destruct (py_float (strip s)) as [[]|]; reflexivity.
Qed.

(** ** Summary comparison *)

Lemma py_eq_none_r (a : json) : py_eq a JNull = true -> a = JNull.
Proof.
  destruct a as [|b|z|f|s|l|l]; try destruct f; simpl; try discriminate; auto.
Qed.

Lemma is_none_true (a : json) : is_none a = true -> a = JNull.
Proof. destruct a; simpl; try discriminate; auto. Qed.

Lemma compare_summary_nonempty (da db : list (string * json)) :
  da <> [] -> db <> [] ->
  Compare.SummaryCmp.same_seed (Compare.compare_summary (Some da) (Some db))
  = Some (py_eq (jget da "seed") (jget db "seed")
          && negb (is_none (jget da "seed")))
  /\ Compare.SummaryCmp.same_size (Compare.compare_summary (Some da) (Some db))
     = Some (py_eq (jget da "width") (jget db "width")
             && py_eq (jget da "height") (jget db "height")
             && negb (is_none (jget da "width"))).
Proof.
  intros Ha Hb. destruct da as [|pa da]; [congruence|].
  destruct db as [|pb db]; [congruence|]. split; reflexivity.
Qed.

Lemma compare_summary_empty (da db : list (string * json)) :
  da = [] \/ db = [] ->
  Compare.SummaryCmp.same_seed (Compare.compare_summary (Some da) (Some db))
  = None
  /\ Compare.SummaryCmp.same_size (Compare.compare_summary (Some da) (Some db))
     = None.
Proof.
  intros [-> | ->].
  - destruct db; split; reflexivity.
  - destruct da; split; reflexivity.
Qed.

(** C10, as the claim states it, fails: two summaries that are the empty
    record are both present and both lack a seed, and [same_seed] is
    absent for them, not [False]. *)
Lemma same_seed_absent_on_empty_records :
  Compare.SummaryCmp.present_a (Compare.compare_summary (Some []) (Some []))
  = true
  /\ Compare.SummaryCmp.present_b (Compare.compare_summary (Some []) (Some []))
     = true
  /\ jget [] "seed" = JNull
  /\ Compare.SummaryCmp.same_seed (Compare.compare_summary (Some []) (Some []))
     = None.
Proof. repeat split. Qed.

(** C10, amended.  For two summaries that are present: when the widths
    are equal and not [None] and the heights are equal (both absent
    included), [same_size] is [True]; [same_seed] is [True] only when
    the seeds are equal and neither is [None]; two non-empty summaries
    that both lack a seed give [same_seed = False]; and when either
    summary is the empty record both flags are absent. *)
Theorem compare_summary_flags (da db : list (string * json)) :
  let out := Compare.compare_summary (Some da) (Some db) in
  (py_eq (jget da "width") (jget db "width") = true ->
   is_none (jget da "width") = false ->
   py_eq (jget da "height") (jget db "height") = true ->
   Compare.SummaryCmp.same_size out = Some true)
  /\ (Compare.SummaryCmp.same_seed out = Some true ->
      py_eq (jget da "seed") (jget db "seed") = true
      /\ is_none (jget da "seed") = false
      /\ is_none (jget db "seed") = false)
  /\ (da <> [] -> db <> [] ->
      is_none (jget da "seed") = true -> is_none (jget db "seed") = true ->
      Compare.SummaryCmp.same_seed out = Some false)
  /\ (da = [] \/ db = [] ->
      Compare.SummaryCmp.same_seed out = None
      /\ Compare.SummaryCmp.same_size out = None).
Proof.
  cbv zeta. split; [|split; [|split]].
  - intros Hw Hn Hh.
    assert (da <> []) as Ha
      by (intros E; subst da; vm_compute in Hn; discriminate Hn).
    assert (db <> []) as Hb.
    { intros E; subst db. apply py_eq_none_r in Hw. rewrite Hw in Hn.
      vm_compute in Hn. discriminate Hn. }
    destruct (compare_summary_nonempty da db Ha Hb) as [_ ->].
    rewrite Hw, Hh, Hn. reflexivity.
  - intros Hs.
    assert (da <> []) as Ha.
    { intros E. destruct (compare_summary_empty da db (or_introl E)) as [E1 _].
      rewrite E1 in Hs. discriminate Hs. }
    assert (db <> []) as Hb.
    { intros E. destruct (compare_summary_empty da db (or_intror E)) as [E1 _].
      rewrite E1 in Hs. discriminate Hs. }
    destruct (compare_summary_nonempty da db Ha Hb) as [E _].
    rewrite E in Hs. injection Hs as Hs.
    apply andb_true_iff in Hs as [Hs1 Hs2]. apply negb_true_iff in Hs2.
    repeat split; auto.
    destruct (is_none (jget db "seed")) eqn:Hnb; [|reflexivity].
    apply is_none_true in Hnb. rewrite Hnb in Hs1.
    apply py_eq_none_r in Hs1. rewrite Hs1 in Hs2. discriminate Hs2.
  - intros Ha Hb Hna Hnb.
    destruct (compare_summary_nonempty da db Ha Hb) as [-> _].
    rewrite Hna, andb_false_r. reflexivity.
  - apply compare_summary_empty.
Qed.

(** The summaries [{width: 10}] and [{width: 10.0, tool: "t"}]: equal
    widths, both heights and both seeds absent. *)
Lemma compare_summary_flags_witness :
  Compare.SummaryCmp.same_size
    (Compare.compare_summary (Some [("width", JInt 10)])
       (Some [("width", JFloat (PFin 10)); ("tool", JStr "t")])) = Some true
  /\ Compare.SummaryCmp.same_seed
       (Compare.compare_summary (Some [("width", JInt 10)])
          (Some [("width", JFloat (PFin 10)); ("tool", JStr "t")])) = Some false.
Proof.
  pose proof (compare_summary_flags [("width", JInt 10)]
                [("width", JFloat (PFin 10)); ("tool", JStr "t")]) as H.
  cbv zeta in H. destruct H as (Hsize & _ & Hseed & _). split.
  - apply Hsize; reflexivity.
  - apply Hseed; [discriminate | discriminate | reflexivity | reflexivity].
Defined.

(** ** Key columns of a tile table *)

Lemma first_some_Some {A B : Type} (f : A -> option B) (l : list A) (b : B) :
  first_some f l = Some b -> exists a, a ∈ l /\ f a = Some b.
Proof.
  induction l as [|a l IH]; simpl; [discriminate|].
  destruct (f a) as [b'|] eqn:E.
  - intros [= <-]. exists a. split; [left | exact E].
  - intros H. destruct (IH H) as (a' & Hin & Ha'). exists a'.
    split; [right; exact Hin | exact Ha'].
Qed.

Lemma header_dict_lookup (key : string -> string) (headers : list string)
    (k : string) :
  Insights.header_dict key headers !! k
  = last (filter (fun h => key h = k) headers).
Proof.
  unfold Insights.header_dict.
  enough (forall m : gmap string string,
             fold_left (fun m h => <[key h := h]> m) headers m !! k
             = match last (filter (fun h => key h = k) headers) with
               | Some h => Some h
               | None => m !! k
               end) as H.
  { rewrite H, lookup_empty. destruct (last _); reflexivity. }
  induction headers as [|h headers IH]; intros m; simpl; [reflexivity|].
  rewrite IH, filter_cons. destruct (decide (key h = k)) as [E|E].
  - destruct (filter _ headers) as [|h' l] eqn:F; simpl.
    + rewrite E. apply lookup_insert_eq.
    + destruct (last (h' :: l)) eqn:L; [reflexivity|].
      apply last_None in L. discriminate L.
  - destruct (last _); [reflexivity|]. apply lookup_insert_ne. exact E.
Qed.

Lemma last_filter_Some {A : Type} (P : A -> Prop) `{forall x, Decision (P x)}
    (l : list A) (x : A) :
  last (filter P l) = Some x -> x ∈ l /\ P x.
Proof.
  intros Hl. apply last_Some in Hl as [l' Hl].
  assert (x ∈ filter P l) as Hin by (rewrite Hl; set_solver).
  apply list_elem_of_filter in Hin. tauto.
Qed.

Lemma choose_column_two_stage (headers candidates : list string) :
  Insights._choose_column headers candidates
  = match named_match lower headers candidates with
    | Some h => Some h
    | None => named_match Insights.norm headers candidates
    end.
Proof.
  unfold Insights._choose_column, named_match.
  assert (forall key,
             first_some (fun c => Insights.header_dict key headers !! key c)
                        candidates
             = first_some
                 (fun c => last (filter (fun h => key h = key c) headers))
                 candidates) as E.
  { intros key. induction candidates as [|c cs IH]; simpl; [reflexivity|].
    rewrite header_dict_lookup, IH. reflexivity. }
  rewrite !E. reflexivity.
Qed.

Lemma choose_column_Some (headers candidates : list string) (h : string) :
  Insights._choose_column headers candidates = Some h ->
  h ∈ headers
  /\ exists c, c ∈ candidates
              /\ (lower h = lower c \/ Insights.norm h = Insights.norm c).
Proof.
  rewrite choose_column_two_stage. unfold named_match.
  destruct (first_some _ candidates) as [h'|] eqn:E1.
  - intros [= <-]. apply first_some_Some in E1 as (c & Hc & Hl).
    apply last_filter_Some in Hl as [Hin Hk]. eauto.
  - intros E2. apply first_some_Some in E2 as (c & Hc & Hl).
    apply last_filter_Some in Hl as [Hin Hk]. eauto.
Qed.

Lemma key_candidates_truthy (headers candidates : list string) (h : string) :
  candidates = ["x"; "tile_x"; "ix"; "col"]
  \/ candidates = ["y"; "tile_y"; "iy"; "row"] ->
  Insights._choose_column headers candidates = Some h ->
  Insights.truthy (Some h) = true.
Proof.
  intros Hc Hh. apply choose_column_Some in Hh as (_ & c & Hin & Hk).
  unfold Insights.truthy. apply negb_true_iff, bool_decide_eq_false.
  intros ->.
  destruct Hc as [-> | ->];
    repeat (apply elem_of_cons in Hin as [-> | Hin];
            [destruct Hk as [Hk | Hk]; vm_compute in Hk; discriminate Hk|]);
    apply elem_of_nil in Hin; exact Hin.
Qed.

Lemma find_head_filter {A : Type} (P : A -> Prop) `{forall x, Decision (P x)}
    (l : list A) :
  List.find (fun x => bool_decide (P x)) l = head (filter P l).
Proof.
  induction l as [|a l IH]; simpl; [reflexivity|].
  rewrite filter_cons. destruct (decide (P a)) as [Ha|Ha].
  - rewrite (bool_decide_eq_true_2 _ Ha). reflexivity.
  - rewrite (bool_decide_eq_false_2 _ Ha). exact IH.
Qed.

Lemma filter_bool_decide {A : Type} (P : A -> Prop)
    `{forall x, Decision (P x)} (l : list A) :
  List.filter (fun x => bool_decide (P x)) l = filter P l.
Proof.
  induction l as [|a l IH]; simpl; [reflexivity|].
  rewrite filter_cons, IH. destruct (decide (P a)) as [Ha|Ha].
  - rewrite (bool_decide_eq_true_2 _ Ha). reflexivity.
  - rewrite (bool_decide_eq_false_2 _ Ha). reflexivity.
Qed.

(** The loop over the first row: with a cell for every column it
    collects the columns whose cell parses as an integer; a cell that
    is [None] raises [AttributeError]. *)
Lemma intish_columns_complete (first : dict_row) (headers : list string) :
  has_all_cells headers first ->
  Insights.intish_columns first headers
  = Ret (filter (fun h => is_Some (dget first h ≫= Insights._to_int))
                headers).
Proof.
  unfold has_all_cells. induction 1 as [|h headers [s Hs] _ IH].
  - reflexivity.
  - cbn [Insights.intish_columns]. unfold Insights.on_cell at 1.
    rewrite Hs, IH, filter_cons. cbn.
    destruct (decide (is_Some (dget first h ≫= Insights._to_int)))
      as [Hd|Hd]; rewrite Hs in Hd; cbn in Hd.
    + destruct Hd as [z ->]. reflexivity.
    + destruct (Insights._to_int s); [|reflexivity].
      exfalso. apply Hd. eauto.
Qed.

Lemma intish_columns_short (first : dict_row) (headers : list string) :
  ~ has_all_cells headers first ->
  Insights.intish_columns first headers = Raise AttributeError.
Proof.
  unfold has_all_cells. induction headers as [|h headers IH]; intros Hn.
  - destruct Hn. constructor.
  - cbn [Insights.intish_columns]. unfold Insights.on_cell at 1.
    destruct (dget first h) as [s|] eqn:Hs; [|reflexivity].
    rewrite IH; [reflexivity|].
    intros Hall. apply Hn. constructor; [rewrite Hs; eauto | exact Hall].
Qed.

(** The fallback of [load_tile_metrics_csv]. *)
Lemma load_tile_metrics_fallback (first : dict_row) (headers : list string) :
  match Insights.intish_columns first headers with
  | Ret (h0 :: h1 :: _) => Some (h0, h1)
  | Ret _ => None
  | Raise _ => None
  end
  = if decide (has_all_cells headers first)
    then first_two_integer_columns Insights._to_int headers first
    else None.
Proof.
  destruct (decide (has_all_cells headers first)) as [Hc|Hc].
  - rewrite (intish_columns_complete _ _ Hc).
    unfold first_two_integer_columns.
    destruct (filter _ headers) as [|h0 [|h1 l]]; reflexivity.
  - rewrite (intish_columns_short _ _ Hc). reflexivity.
Qed.

(** C1, as the claim states it, fails: on the header [ix, iy] the
    analysis tool finds both key columns by name, and the comparison
    tool, which knows neither name and has no fallback, finds none. *)
Lemma compare_infers_keys_differently :
  tile_keys
    (Insights.load_tile_metrics_csv
       (Some (["ix"; "iy"], [mk_dict_row [("ix", "0"); ("iy", "0")]])))
  = Some ("ix", "iy")
  /\ Compare._infer_tile_key_cols ["ix"; "iy"] = (None, None).
Proof. split; vm_compute; reflexivity. Qed.

(** C1, amended.  The analysis tool looks, for the x-role among
    x/tile_x/ix/col and for the y-role among y/tile_y/iy/row, for the
    first candidate that a header equals once both are lower-cased,
    and failing that once both are also stripped of their
    non-alphanumeric characters; when either role finds no column it
    takes the first two columns whose cell in the first row parses as
    an integer, and nothing when the table has no row or its first row
    is shorter than the header.  The comparison tool infers the key
    columns of each side on its own, as the first of x/tile_x/tx and
    the first of y/tile_y/ty that is literally a name of the header,
    and has no fallback. *)
Theorem tile_key_inference :
  (forall headers candidates : list string,
      Insights._choose_column headers candidates
      = match named_match lower headers candidates with
        | Some h => Some h
        | None => named_match Insights.norm headers candidates
        end)
  /\ (forall (headers : list string) (rows : list dict_row),
         tile_keys (Insights.load_tile_metrics_csv (Some (headers, rows)))
         = match Insights._choose_column headers ["x"; "tile_x"; "ix"; "col"],
                 Insights._choose_column headers ["y"; "tile_y"; "iy"; "row"]
           with
           | Some x, Some y => Some (x, y)
           | _, _ =>
               match rows with
               | [] => None
               | sample :: _ =>
                   if decide (has_all_cells headers sample)
                   then first_two_integer_columns Insights._to_int
                          headers sample
                   else None
               end
           end)
  /\ (forall header : list string,
         Compare._infer_tile_key_cols header
         = (first_present header ["x"; "tile_x"; "tx"],
            first_present header ["y"; "tile_y"; "ty"])).
Proof.
  split; [exact choose_column_two_stage|split].
  - intros headers rows. unfold Insights.load_tile_metrics_csv, tile_keys.
    destruct (Insights._choose_column headers ["x"; "tile_x"; "ix"; "col"])
      as [x|] eqn:Ex;
      destruct (Insights._choose_column headers ["y"; "tile_y"; "iy"; "row"])
      as [y|] eqn:Ey.
    + rewrite (key_candidates_truthy _ _ _ (or_introl eq_refl) Ex).
      rewrite (key_candidates_truthy _ _ _ (or_intror eq_refl) Ey).
      reflexivity.
    + rewrite orb_true_r.
      destruct rows as [|sample rows]; [reflexivity|].
      rewrite load_tile_metrics_fallback.
      destruct (decide _); [|reflexivity].
      destruct (first_two_integer_columns _ _ _) as [[??]|]; reflexivity.
    + cbn [Insights.truthy negb orb].
      destruct rows as [|sample rows]; [reflexivity|].
      rewrite load_tile_metrics_fallback.
      destruct (decide _); [|reflexivity].
      destruct (first_two_integer_columns _ _ _) as [[??]|]; reflexivity.
    + cbn [Insights.truthy negb orb].
      destruct rows as [|sample rows]; [reflexivity|].
      rewrite load_tile_metrics_fallback.
      destruct (decide _); [|reflexivity].
      destruct (first_two_integer_columns _ _ _) as [[??]|]; reflexivity.
  - intros header. unfold Compare._infer_tile_key_cols, first_present.
    rewrite !find_head_filter. reflexivity.
Qed.

(** ** Calls that may raise *)

Lemma bind_Ret {A B : Type} (m : py A) (f : A -> py B) (b : B) :
  m ≫= f = Ret b -> exists a, m = Ret a /\ f a = Ret b.
Proof. destruct m as [a|e]; [eauto | discriminate]. Qed.

Lemma py_index_nth {A : Type} (xs : list A) (i : Z) (d : A) :
  (0 <= i < Z.of_nat (length xs))%Z ->
  py_index xs i = Ret (nth (Z.to_nat i) xs d).
Proof.
  intros Hi. unfold py_index.
  destruct (Z.ltb_spec i 0) as [?|_]; [lia|].
  destruct (Z.ltb_spec i 0) as [?|_]; [lia|].
  rewrite nth_lookup.
  destruct (lookup_lt_is_Some_2 xs (Z.to_nat i)) as [x ->]; [lia|].
  reflexivity.
Qed.

Lemma py_index_last {A : Type} (xs : list A) :
  xs <> [] -> returns (py_index xs (-1)).
Proof.
  intros Hx. unfold py_index, returns. cbn [Z.ltb Z.compare].
  assert (0 < length xs)%nat by (destruct xs; [congruence | simpl; lia]).
  destruct (Z.ltb_spec (-1 + Z.of_nat (length xs)) 0) as [?|_]; [lia|].
  destruct (lookup_lt_is_Some_2 xs (Z.to_nat (-1 + Z.of_nat (length xs))))
    as [x ->]; [lia|].
  eauto.
Qed.

(** ** Percentiles *)


Lemma pct_index_bounds (n : Z) (p : Q) :
  (2 <= n)%Z -> (0 <= p <= 1)%Q ->
  let k := (inject_Z (n - 1) * p)%Q in
  (0 <= Qfloor k <= n - 1)%Z
  /\ (0 <= k - inject_Z (Qfloor k))%Q /\ (k - inject_Z (Qfloor k) < 1)%Q.
Proof.
  intros Hn [Hp0 Hp1] k.
  assert (0 <= inject_Z (n - 1))%Q as Hn0.
  { rewrite <- (Zle_Qle 0). lia. }
  assert (0 <= k)%Q as Hk0 by (unfold k; nra).
  assert (k <= inject_Z (n - 1))%Q as Hk1 by (unfold k; nra).
  pose proof (Qfloor_le k) as Hf1. pose proof (Qlt_floor k) as Hf2.
  rewrite inject_Z_plus in Hf2.
  split; [split|split].
  - change 0%Z with (Qfloor 0). apply Qfloor_resp_le. exact Hk0.
  - rewrite <- (Qfloor_Z (n - 1)). apply Qfloor_resp_le. exact Hk1.
  - lra.
  - change (inject_Z 1) with 1%Q in Hf2. lra.
Qed.

(** On a non-empty list and a fraction of [0, 1], [pct] returns, and
    what it returns is the percentile of the specification. *)
Lemma pct_percentile (xs : list Q) (p : Q) :
  xs <> [] -> (0 <= p <= 1)%Q ->
  exists v, pct xs p = Ret v /\ (v == percentile xs p)%Q.
Proof.
  intros Hx Hp. unfold pct, percentile, nthQ.
  assert (1 <= Z.of_nat (length xs))%Z as Hn
    by (destruct xs; [congruence | simpl; lia]).
  destruct (Z.eqb_spec (Z.of_nat (length xs)) 1) as [E|E].
  - rewrite (py_index_nth xs 0 0%Q) by lia. eexists. split; [reflexivity|].
    rewrite E. change (1 - 1)%Z with 0%Z.
    assert (Qfloor (inject_Z 0 * p) = 0%Z) as ->.
    { transitivity (Qfloor (inject_Z 0)); [|apply Qfloor_Z].
      apply Qfloor_comp. unfold inject_Z. lra. }
    change (Z.min (0 + 1) 0) with 0%Z. unfold inject_Z. lra.
  - destruct (pct_index_bounds (Z.of_nat (length xs)) p) as ([Hi0 Hi1] & _);
      [lia | exact Hp |].
    set (i := Qfloor _) in *.
    rewrite (py_index_nth xs i 0%Q) by lia.
    unfold mbind, py_bind at 1.
    rewrite (py_index_nth xs (Z.min (i + 1) (Z.of_nat (length xs) - 1)) 0%Q)
      by lia.
    unfold py_bind. eexists. split; [reflexivity|]. reflexivity.
Qed.

Lemma pct_returns (xs : list Q) (p : Q) :
  xs <> [] -> (0 <= p <= 1)%Q -> returns (pct xs p).
Proof.
  intros Hx Hp. destruct (pct_percentile xs p Hx Hp) as (v & Hv & _).
  exists v. exact Hv.
Qed.








(** ** Statistics of a series *)

Lemma mapM_py_returns {A B : Type} (f : A -> py B) (l : list A) :
  (forall a, returns (f a)) -> returns (mapM_py f l).
Proof.
  intros Hf. induction l as [|a l [bs IH]]; simpl.
  - eexists. reflexivity.
  - destruct (Hf a) as [b ->]. unfold mbind, py_bind. rewrite IH.
    eexists. reflexivity.
Qed.

Lemma literal_fractions :
  Forall (fun p => 0 <= literal p <= 1)%Q
         [10 # 100; 50 # 100; 90 # 100; 99 # 100]%Q.
Proof. repeat constructor; vm_compute; discriminate. Qed.

(** [compute_stats] raises only what the library raises. *)
Lemma compute_stats_returns (L : pylib) (values : list (option pyfloat)) :
  total_lib L -> returns (compute_stats L values).
Proof.
  intros [Hmean Hdev]. unfold compute_stats.
  destruct (omap finite values) as [|x xs] eqn:E; [eexists; reflexivity|].
  set (ys := sort_by Qle_bool (x :: xs)).
  assert (ys <> []) as Hys.
  { intros H. apply sort_by_nil in H. discriminate H. }
  destruct (Hmean ys Hys) as [mean ->].
  unfold mbind at 1, py_bind at 1.
  assert (returns (if (2 <=? length ys)%nat then lib_pstdev L ys
                   else Ret 0%Q)) as [stdev ->].
  { destruct (2 <=? length ys)%nat; [apply Hdev, Hys | eexists; reflexivity]. }
  unfold mbind at 1, py_bind at 1.
  assert (0 < length ys)%nat
    by (destruct ys; [congruence | simpl; lia]).
  rewrite (py_index_nth ys 0 0%Q) by lia.
  unfold mbind at 1, py_bind at 1.
  pose proof literal_fractions as HF.
  repeat match type of HF with
         | Forall _ (_ :: _) =>
             apply Forall_cons in HF as [?H HF]
         end.
  destruct (pct_returns ys (literal (10 # 100))) as [q10 ->];
    [exact Hys | assumption |].
  unfold mbind at 1, py_bind at 1.
  destruct (pct_returns ys (literal (50 # 100))) as [q50 ->];
    [exact Hys | assumption |].
  unfold mbind at 1, py_bind at 1.
  destruct (pct_returns ys (literal (90 # 100))) as [q90 ->];
    [exact Hys | assumption |].
  unfold mbind at 1, py_bind at 1.
  destruct (pct_returns ys (literal (99 # 100))) as [q99 ->];
    [exact Hys | assumption |].
  unfold mbind at 1, py_bind at 1.
  destruct (py_index_last ys Hys) as [hi ->].
  eexists. reflexivity.
Qed.

(** ** Tick comparison *)

Lemma to_int_empty : Compare._to_int "" = None.
Proof. reflexivity. Qed.

Lemma dom_day_map (rows : list row) :
  dom (Compare.day_map rows) = day_keys rows.
Proof.
  unfold Compare.day_map, day_keys.
  enough (forall m : gmap Z row,
             dom (fold_left
                    (fun m r =>
                       match Compare._to_int (get r "day") with
                       | None => m
                       | Some d => <[d := r]> m
                       end) rows m)
             = dom m ∪ list_to_set
                         (omap (fun r => Compare._to_int (get r "day")) rows))
    as H.
  { rewrite H, dom_empty_L. set_solver. }
  induction rows as [|r rows IH]; intros m; simpl.
  - set_solver.
  - rewrite IH. destruct (Compare._to_int (get r "day")) as [d|]; simpl.
    + rewrite dom_insert_L. set_solver.
    + reflexivity.
Qed.

Lemma day_keys_without_column (r0 : row) (rows : list row) :
  uniform_columns (r0 :: rows) ->
  has_key r0 "day" = false ->
  day_keys (r0 :: rows) = ∅.
Proof.
  intros Hu Hk. unfold day_keys.
  enough (omap (fun r => Compare._to_int (get r "day")) (r0 :: rows) = [])
    as -> by reflexivity.
  assert (forall r, r ∈ r0 :: rows -> Compare._to_int (get r "day") = None)
    as Hnone.
  { intros r Hr. unfold has_key in Hk. apply bool_decide_eq_false in Hk.
    assert (cells r !! "day" = None) as E.
    { apply not_elem_of_dom. rewrite (Hu r r0 Hr (list_elem_of_here _ _)).
      rewrite elem_of_dom. exact Hk. }
    unfold get. rewrite E. exact to_int_empty. }
  clear Hu Hk. induction (r0 :: rows) as [|r l IH]; [reflexivity|].
  simpl. rewrite (Hnone r (list_elem_of_here _ _)).
  apply IH. intros r' Hr'. apply Hnone. right. exact Hr'.
Qed.

Lemma discover_numeric_columns_returns (rows : list row) (frac : Q) :
  (forall r, head rows = Some r -> rest r = None) ->
  returns (Compare.discover_numeric_columns rows frac).
Proof.
  intros Hr. unfold Compare.discover_numeric_columns.
  destruct rows as [|r0 rows]; [eexists; reflexivity|].
  rewrite (Hr r0 eq_refl). eexists. reflexivity.
Qed.

Lemma tick_metric_returns (L : pylib) (map_a map_b : gmap Z row)
    (days : list Z) (c : string) :
  total_lib L -> returns (Compare.tick_metric L map_a map_b days c).
Proof.
  intros HL. unfold Compare.tick_metric.
  destruct (compute_stats_returns L
              (map (fun d => Compare._to_float (get (map_a !!! d) c)) days) HL)
    as [sa ->].
  unfold mbind at 1, py_bind at 1.
  destruct (compute_stats_returns L
              (map (fun d => Compare._to_float (get (map_b !!! d) c)) days) HL)
    as [sb ->].
  eexists. reflexivity.
Qed.

(** What [compare_ticks] does with the common days: with none it
    returns the empty comparison; otherwise the counters are set from
    the sorted days and the rest of the call fills the metrics. *)
Lemma compare_ticks_days (L : pylib) (rows_a rows_b : list row) :
  uniform_columns rows_a -> uniform_columns rows_b ->
  let out0 :=
    Compare.TicksCmp.mk (negb (bool_decide (rows_a = [])))
                        (negb (bool_decide (rows_b = []))) 0 None None [] in
  match sort_by Z.leb (elements (day_keys rows_a ∩ day_keys rows_b)) with
  | [] => Compare.compare_ticks L rows_a rows_b = Ret out0
  | d0 :: days =>
      exists m : py (list Compare.TickMetric.t),
        Compare.compare_ticks L rows_a rows_b
        = (metrics ← m;
           Ret (Compare.TicksCmp.mk
                  (negb (bool_decide (rows_a = [])))
                  (negb (bool_decide (rows_b = [])))
                  (length (d0 :: days)) (Some d0) (last (d0 :: days))
                  metrics))
        /\ (total_lib L ->
            (forall r, head rows_a = Some r -> rest r = None) ->
            (forall r, head rows_b = Some r -> rest r = None) ->
            returns m)
  end.
Proof.
  intros Ha Hb out0.
  assert (forall s : gset Z, s = ∅ -> sort_by Z.leb (elements s) = [])
    as Hempty by (intros s ->; reflexivity).
  unfold Compare.compare_ticks. fold out0.
  destruct rows_a as [|ra0 rows_a].
  { rewrite Hempty by set_solver. reflexivity. }
  destruct rows_b as [|rb0 rows_b].
  { rewrite Hempty by set_solver. reflexivity. }
  destruct (has_key ra0 "day") eqn:Ka.
  2:{ rewrite (day_keys_without_column _ _ Ha Ka).
      rewrite Hempty by set_solver. reflexivity. }
  destruct (has_key rb0 "day") eqn:Kb.
  2:{ rewrite (day_keys_without_column _ _ Hb Kb).
      rewrite Hempty by set_solver. reflexivity. }
  cbn [andb]. rewrite !dom_day_map.
  destruct (sort_by Z.leb (elements _)) as [|d0 days]; [reflexivity|].
  eexists
    (num_a ← Compare.discover_numeric_columns (ra0 :: rows_a)
               (literal (75 # 100));
     num_b ← Compare.discover_numeric_columns (rb0 :: rows_b)
               (literal (75 # 100));
     metrics ← mapM_py
                 (Compare.tick_metric L (Compare.day_map (ra0 :: rows_a))
                    (Compare.day_map (rb0 :: rows_b)) (d0 :: days))
                 (sort_by String.leb
                    (elements ((list_to_set num_a ∩ list_to_set num_b)
                               ∖ {["day"]} : gset string)));
     Ret (sort_by Compare.by_sort_key_desc metrics)).
  split.
  - destruct (Compare.discover_numeric_columns (ra0 :: rows_a) _)
      as [num_a|e]; [|reflexivity].
    destruct (Compare.discover_numeric_columns (rb0 :: rows_b) _)
      as [num_b|e]; [|reflexivity].
    unfold mbind, py_bind.
    destruct (mapM_py _ _) as [metrics|e]; reflexivity.
  - intros HL Hra Hrb.
    destruct (discover_numeric_columns_returns (ra0 :: rows_a)
                (literal (75 # 100)) Hra) as [num_a ->].
    destruct (discover_numeric_columns_returns (rb0 :: rows_b)
                (literal (75 # 100)) Hrb) as [num_b ->].
    unfold mbind at 1 2, py_bind at 1 2.
    destruct (mapM_py_returns
                (Compare.tick_metric L (Compare.day_map (ra0 :: rows_a))
                   (Compare.day_map (rb0 :: rows_b)) (d0 :: days))
                (sort_by String.leb
                   (elements ((list_to_set num_a ∩ list_to_set num_b)
                              ∖ {["day"]} : gset string))))
      as [metrics ->].
    { intros c. apply tick_metric_returns, HL. }
    eexists. reflexivity.
Qed.

(** C6.  For two tick tables whose rows all have the same columns: when
    [compare_ticks] returns, [common_days] is the number of day keys
    that the two tables share, and [day_min .. day_max] are the
    smallest and the largest of them (both absent when none is
    shared); it returns when no day is shared, and also when the
    library calls return and the first row of neither table has cells
    beyond its header. *)
Theorem compare_ticks_common_days (L : pylib) (rows_a rows_b : list row) :
  uniform_columns rows_a -> uniform_columns rows_b ->
  let common := day_keys rows_a ∩ day_keys rows_b in
  (forall out, Compare.compare_ticks L rows_a rows_b = Ret out ->
     Compare.TicksCmp.common_days out = size common
     /\ match Compare.TicksCmp.day_min out, Compare.TicksCmp.day_max out with
        | Some lo, Some hi =>
            lo ∈ common /\ hi ∈ common
            /\ forall d, d ∈ common -> (lo <= d <= hi)%Z
        | None, None => common = ∅
        | _, _ => False
        end)
  /\ (common = ∅ -> returns (Compare.compare_ticks L rows_a rows_b))
  /\ (total_lib L ->
      (forall r, head rows_a = Some r -> rest r = None) ->
      (forall r, head rows_b = Some r -> rest r = None) ->
      returns (Compare.compare_ticks L rows_a rows_b)).
Proof.
  intros Ha Hb common.
  pose proof (compare_ticks_days L rows_a rows_b Ha Hb) as Hd.
  cbv zeta in Hd. fold common in Hd.
  pose proof (sort_by_Permutation Z.leb (elements common)) as Hperm.
  assert (StronglySorted (fun a b => (a <=? b)%Z = true)
            (sort_by Z.leb (elements common))) as Hsorted.
  { apply (sort_by_sorted Z.leb (fun _ => True)).
    - intros x y _ _. rewrite !Z.leb_le. lia.
    - intros x y z _ _ _. rewrite !Z.leb_le. lia.
    - apply Forall_true. trivial. }
  destruct (sort_by Z.leb (elements common)) as [|d0 days] eqn:Hdays.
  - apply sort_by_nil, elements_empty_inv, leibniz_equiv in Hdays.
    rewrite Hd. split; [|split].
    + intros out [= <-]. rewrite Hdays. simpl. split; reflexivity.
    + intros _. eexists. reflexivity.
    + intros _ _ _. eexists. reflexivity.
  - destruct Hd as (m & Hm & Hret). rewrite Hm. split; [|split].
    + intros out Hout. apply bind_Ret in Hout as (metrics & _ & [= <-]).
      cbn [Compare.TicksCmp.common_days Compare.TicksCmp.day_min
             Compare.TicksCmp.day_max].
      split.
      * transitivity (length (d0 :: days)); [reflexivity|].
        rewrite <- Hdays, sort_by_length. reflexivity.
      * destruct (sorted_head_last days d0 Hsorted) as (hi & Hlast & Hbounds).
        rewrite Hlast.
        assert (forall d, d ∈ d0 :: days <-> d ∈ common) as Hin.
        { intros d. rewrite Hperm. apply elem_of_elements. }
        split; [apply Hin; left|].
        split; [apply Hin; apply last_Some_elem_of; exact Hlast|].
        intros d Hd. apply Hbounds, Hin, Hd.
    + intros Hc. rewrite Hc in Hdays. discriminate Hdays.
    + intros HL Hra Hrb. destruct (Hret HL Hra Hrb) as [metrics ->].
      eexists. reflexivity.
Qed.

Lemma ticks_123_uniform : uniform_columns ticks_123.
Proof.
  intros r r' Hr Hr'. unfold ticks_123 in *.
  repeat (apply elem_of_cons in Hr as [-> | Hr]);
    try (apply elem_of_nil in Hr; destruct Hr);
    repeat (apply elem_of_cons in Hr' as [-> | Hr']);
    try (apply elem_of_nil in Hr'; destruct Hr');
    vm_compute; reflexivity.
Qed.

Lemma ticks_234_uniform : uniform_columns ticks_234.
Proof.
  intros r r' Hr Hr'. unfold ticks_234 in *.
  repeat (apply elem_of_cons in Hr as [-> | Hr]);
    try (apply elem_of_nil in Hr; destruct Hr);
    repeat (apply elem_of_cons in Hr' as [-> | Hr']);
    try (apply elem_of_nil in Hr'; destruct Hr');
    vm_compute; reflexivity.
Qed.

Lemma reference_lib_total : total_lib reference_lib.
Proof.
  split; intros xs Hx; simpl; rewrite (bool_decide_eq_false_2 _ Hx);
    eexists; reflexivity.
Qed.

(** The example of the claim: days 1, 2, 3 against days 2, 3, 4 give two
    common days, from 2 to 3. *)
Lemma compare_ticks_common_days_witness :
  exists out,
    Compare.compare_ticks reference_lib ticks_123 ticks_234 = Ret out
    /\ Compare.TicksCmp.common_days out
       = size (day_keys ticks_123 ∩ day_keys ticks_234)
    /\ Compare.TicksCmp.common_days out = 2%nat
    /\ Compare.TicksCmp.day_min out = Some 2%Z
    /\ Compare.TicksCmp.day_max out = Some 3%Z.
Proof.
  destruct (compare_ticks_common_days reference_lib ticks_123 ticks_234
              ticks_123_uniform ticks_234_uniform) as (Hout & _ & Hret).
  destruct Hret as [out Hret].
  { exact reference_lib_total. }
  { intros r [= <-]. reflexivity. }
  { intros r [= <-]. reflexivity. }
  exists out. split; [exact Hret|].
  split; [exact (proj1 (Hout out Hret))|].
  vm_compute in Hret. injection Hret as <-.
  repeat split; reflexivity.
Defined.

(** ** Per-tile deltas *)

















(** ** Gini coefficient *)




Lemma of_nat_nonneg (n : nat) : (0 <= of_nat n)%Q.
Proof. unfold of_nat. rewrite <- (Zle_Qle 0). lia. Qed.








(** ** Binary64 arithmetic *)




(** ** Sums that may overflow *)







(** ** Pearson correlation *)













(** ** Moran's I *)










Section Grid.

Variables (values : list (option float)) (w h : Z).
Hypothesis Hlen : length values = Z.to_nat (w * h).





End Grid.




